(** * PygameUI Label widget: a shallow embedding of [pygameui/widgets/label.py]

    The Label is a leaf widget: it stores a handful of attributes, derives a
    visual state from the hover flag once per tick, and issues a fixed
    sequence of pygame calls when drawn.  Python values are dynamically
    typed, keyword arguments are dictionaries, and dictionary lookups raise;
    the embedding keeps all three. *)

From stdpp Require Import base option list strings gmap.
From Stdlib Require Import ZArith QArith.

Set Warnings "-register-all".
Local Open Scope Z_scope.

(** ** Python values *)

(** The values that reach the Label: [None], booleans, integers, strings,
    integer tuples (colour triples), opaque pygame objects (a [Color], a
    [Font], a [Surface], an [Event], named by class and handle) and
    string-keyed dictionaries (the theme registry). *)
Inductive pyval :=
| PNone
| PBool (b : bool)
| PInt (n : Z)
| PStr (s : string)
| PTuple (items : list Z)
| PObject (cls : string) (handle : N)
| PDict (d : gmap string pyval).

(** [**kwargs]: a dictionary from argument names to values. *)
Abbreviation kwargs := (gmap string pyval).

(** Truth value of a Python object, as tested by [if x:]. *)
Definition truthy (v : pyval) : bool :=
  match v with
  | PNone => false
  | PBool b => b
  | PInt n => negb (n =? 0)
  | PStr s => negb (String.eqb s "")
  | PTuple items => negb (Nat.eqb (length items) 0)
  | PObject _ _ => true
  | PDict d => negb (Nat.eqb (size d) 0)
  end.

(** [v == s] for a string literal [s]: only a string with the same
    characters compares equal. *)
Definition eq_str (v : pyval) (s : string) : bool :=
  match v with
  | PStr t => String.eqb t s
  | _ => false
  end.

(** [v is None]. *)
Definition is_None (v : pyval) : bool :=
  match v with
  | PNone => true
  | _ => false
  end.

(** ** Exceptions *)

Inductive exn :=
| KeyError (key : string)
| TypeError
| ValueError
| AttributeError (name : string).

Inductive result (A : Type) :=
| Ok (a : A)
| Raise (e : exn).
Arguments Ok {A} a.
Arguments Raise {A} e.

Global Instance result_ret : MRet result := λ A a, Ok a.
Global Instance result_bind : MBind result := λ A B f m,
  match m with
  | Ok a => f a
  | Raise e => Raise e
  end.
Global Instance result_fmap : FMap result := λ A B f m,
  match m with
  | Ok a => Ok (f a)
  | Raise e => Raise e
  end.

(** ** Dictionaries *)

(** [d.get(key, default)]: the value under [key], or [default]. *)
Definition get (key : string) (default : pyval) (d : kwargs) : pyval :=
  match d !! key with
  | Some v => v
  | None => default
  end.

(** [d.pop(key, default)]: the same value, and [key] leaves the dictionary. *)
Definition pop (key : string) (default : pyval) (d : kwargs) : pyval * kwargs :=
  (get key default d, delete key d).

(** [v[key]]: subscripting raises [KeyError] on a missing key, and
    [TypeError] when [v] is no dictionary. *)
Definition subscript (v : pyval) (key : string) : result pyval :=
  match v with
  | PDict d =>
      match d !! key with
      | Some x => Ok x
      | None => Raise (KeyError key)
      end
  | _ => Raise TypeError
  end.

(** [v[k1][k2]...]: subscripts chained from left to right. *)
Definition subscripts (v : pyval) (path : list string) : result pyval :=
  foldl (λ r key, r ≫= λ x, subscript x key) (Ok v) path.

(** ** pygame *)

(** [pygame.Rect]: position of the top left corner and size, held as C
    ints. *)
Record Rect := { x : Z; y : Z; w : Z; h : Z }.

(** A value stored in a C int: 32 bits, two's complement, wrapping around. *)
Definition wrap (v : Z) : Z := (v + 2 ^ 31) mod 2 ^ 32 - 2 ^ 31.

(** The virtual attributes of a [pygame.Rect] the Label reads and writes.
    pygame computes them in C ints, halving with C integer division, and an
    assigned value is cut to a C int. *)
Definition left (r : Rect) : Z := x r.
Definition centerx (r : Rect) : Z := wrap (x r + Z.quot (w r) 2).
Definition centery (r : Rect) : Z := wrap (y r + Z.quot (h r) 2).
Definition center (r : Rect) : Z * Z := (centerx r, centery r).
Definition set_left (v : Z) (r : Rect) : Rect :=
  {| x := wrap v; y := y r; w := w r; h := h r |}.
Definition set_centery (v : Z) (r : Rect) : Rect :=
  {| x := x r; y := wrap (v - Z.quot (h r) 2); w := w r; h := h r |}.
Definition set_center (c : Z * Z) (r : Rect) : Rect :=
  {| x := wrap (c.1 - Z.quot (w r) 2); y := wrap (c.2 - Z.quot (h r) 2);
     w := w r; h := h r |}.

(** What the Label asks of pygame besides drawing: the two constructors it
    calls while it is built, which may reject their argument, the surface a
    font renders, and the size of a surface.  [pygame.font.SysFont] falls
    back to the default font for a family it does not know: when it returns,
    it returns a font object. *)
Class Pygame := {
  pygame_Color : pyval → result pyval;
  pygame_font_SysFont : pyval → pyval → result pyval;
  Font_render : pyval → pyval → bool → pyval → pyval;
  Surface_get_size : pyval → Z * Z;
  SysFont_object : ∀ family size f,
    pygame_font_SysFont family size = Ok f → f ≠ PNone;
}.

(** [surface.get_rect()]: a rectangle of the surface's size at the origin. *)
Definition get_rect `{Pygame} (surface : pyval) : Rect :=
  {| x := 0; y := 0; w := (Surface_get_size surface).1; h := (Surface_get_size surface).2 |}.

(** What a draw does, in program order: the pygame calls it issues, each with
    its arguments as passed, and the exception that ends it when an attribute
    it asks for is not there. *)
Inductive call :=
| draw_rect (surface color : pyval) (rect : Rect) (width border_radius : pyval)
| render (font text : pyval) (antialias : bool) (color : pyval)
| blit (dest source : pyval) (dest_rect : Rect)
| raises (e : exn).

(** Whether [v] is a pygame object of class [cls]; only a [Font] has a
    [render] method and only a [Surface] a [get_rect] method. *)
Definition instance_of (cls : string) (v : pyval) : bool :=
  match v with
  | PObject c _ => String.eqb c cls
  | _ => false
  end.

(** [pygame.draw.rect(surface, color, rect, width=0, border_radius=0)]: an
    argument left out takes pygame's default. *)
Definition pygame_draw_rect (surface color : pyval) (rect : Rect)
    (width border_radius : option pyval) : call :=
  draw_rect surface color rect (default (PInt 0) width) (default (PInt 0) border_radius).

(** ** The collaborators: Widget and HoverableMixin *)

(** [label.py] inherits from [Widget] and [HoverableMixin], which live in
    other modules.  The Label uses them through this interface: [W] holds the
    attributes they own, among them the parent surface [_master], the
    bounding rectangle [_rect] and the hover flag [hovered].  Their methods
    work on [W]; the attributes [Label.__init__] assigns are the Label's. *)
Class WidgetBase (W : Type) := {
  Widget__init__ : pyval → pyval → pyval → pyval → pyval → kwargs → result W;
  HoverableMixin__init__ : W → W;
  Widget_configure_set : kwargs → W → result W;
  Widget_configure_get : string → W → result pyval;
  _check_hover : pyval → W → W;
  hovered : W → bool;
  _master : W → pyval;
  _rect : W → Rect;
}.

(** ** The Label *)

Section Label.
Context `{Pygame} {W : Type} `{WidgetBase W}.

(** The attributes [Label.__init__] assigns, and the part of the object
    that belongs to the base classes. *)
Record Label := {
  _text : pyval;
  _wraplength : pyval;
  _underline : pyval;
  _font : pyval;
  _image : pyval;
  _border_radius : pyval;
  _borderwidth : pyval;
  _foreground : pyval;
  _background : pyval;
  _hovercolor : pyval;
  _hoverbackground : pyval;
  _bordercolor : pyval;
  _state : pyval;
  widget : W;
}.

(** The positional and named arguments of the constructor. *)
Record init_args := {
  master : pyval;
  width : pyval;
  height : pyval;
  text : pyval;
  font : pyval;
  image : pyval;
  background : pyval;
  foreground : pyval;
  kw : kwargs;
}.

(** The constructor's defaults: [Label()]. *)
Definition default_args : init_args :=
  {| master := PNone; width := PInt 200; height := PInt 40; text := PStr "Label";
     font := PNone; image := PNone; background := PNone; foreground := PNone;
     kw := ∅ |}.

(** [Label.__init__], reading the registry [theme] (the class attribute
    [ThemeManager.theme]).  A default passed to [kwargs.pop] is evaluated
    before the call, so its theme lookup happens, and may raise, also when
    the key is present; the conditional expressions of the two normal colours
    look the theme up only when the argument is [None]. *)
Definition Label__init__ (theme : pyval) (a : init_args) : result Label :=
  let text_ := text a in
  let '(wraplength_, kw1) := pop "wraplength" (PBool true) (kw a) in
  let '(underline_, kw2) := pop "underline" (PBool false) kw1 in
  family ← subscripts theme ["font"; "family"];
  size ← subscripts theme ["font"; "size"];
  font_ ← pygame_font_SysFont family size;
  let font' := if is_None (font a) then font_ else font a in
  let image_ := image a in
  radius_default ← subscripts theme ["Label"; "border_radius"];
  let '(border_radius_, kw3) := pop "border_radius" radius_default kw2 in
  width_default ← subscripts theme ["Label"; "borderwidth"];
  let '(borderwidth_, kw4) := pop "borderwidth" width_default kw3 in
  fg_spec ← (if is_None (foreground a)
             then subscripts theme ["Label"; "normal"; "foreground"]
             else Ok (foreground a));
  foreground_ ← pygame_Color fg_spec;
  bg_spec ← (if is_None (background a)
             then subscripts theme ["Label"; "normal"; "background"]
             else Ok (background a));
  background_ ← pygame_Color bg_spec;
  hover_fg ← subscripts theme ["Label"; "hovered"; "foreground"];
  hovercolor_default ← pygame_Color hover_fg;
  let '(hovercolor_, kw5) := pop "hovercolor" hovercolor_default kw4 in
  hover_bg ← subscripts theme ["Label"; "hovered"; "background"];
  hoverbackground_default ← pygame_Color hover_bg;
  let '(hoverbackground_, kw6) := pop "hoverbackground" hoverbackground_default kw5 in
  border ← subscripts theme ["Label"; "bordercolor"];
  bordercolor_default ← pygame_Color border;
  let '(bordercolor_, kw7) := pop "bordercolor" bordercolor_default kw6 in
  let '(state_, kw8) := pop "state" (PStr "normal") kw7 in
  base ← Widget__init__ (master a) (width a) (height a) foreground_ background_ kw8;
  Ok {| _text := text_; _wraplength := wraplength_; _underline := underline_;
        _font := font'; _image := image_;
        _border_radius := border_radius_; _borderwidth := borderwidth_;
        _foreground := foreground_; _background := background_;
        _hovercolor := hovercolor_; _hoverbackground := hoverbackground_;
        _bordercolor := bordercolor_; _state := state_;
        widget := HoverableMixin__init__ base |}.

(** Assignments to a single attribute. *)
Definition with_state (state : pyval) (l : Label) : Label :=
  {| _text := _text l; _wraplength := _wraplength l; _underline := _underline l;
     _font := _font l; _image := _image l;
     _border_radius := _border_radius l; _borderwidth := _borderwidth l;
     _foreground := _foreground l; _background := _background l;
     _hovercolor := _hovercolor l; _hoverbackground := _hoverbackground l;
     _bordercolor := _bordercolor l; _state := state; widget := widget l |}.

Definition with_widget (b : W) (l : Label) : Label :=
  {| _text := _text l; _wraplength := _wraplength l; _underline := _underline l;
     _font := _font l; _image := _image l;
     _border_radius := _border_radius l; _borderwidth := _borderwidth l;
     _foreground := _foreground l; _background := _background l;
     _hovercolor := _hovercolor l; _hoverbackground := _hoverbackground l;
     _bordercolor := _bordercolor l; _state := _state l; widget := b |}.

(** [_set_state_(state=None)]. *)
Definition _set_state_ (state : pyval) (l : Label) : Label :=
  if is_None state
  then with_state (PStr (if hovered (widget l) then "hovered" else "normal")) l
  else with_state state l.

Definition _get_state_foreground_ (l : Label) : pyval :=
  if eq_str (_state l) "hovered" then _hovercolor l else _foreground l.

Definition _get_state_background_ (l : Label) : pyval :=
  if eq_str (_state l) "hovered" then _hoverbackground l else _background l.

(** [_configure_set_], called with keyword arguments: eight names are
    popped, the two border sizes are read with [get] and stay in the mapping
    handed to the base.  The assignments precede the base call; the model
    keeps no Label for a call in which the base raises. *)
Definition _configure_set_ (kwargs0 : kwargs) (l : Label) : result Label :=
  let '(text_, k1) := pop "text" (_text l) kwargs0 in
  let '(font_, k2) := pop "font" (_font l) k1 in
  let '(image_, k3) := pop "image" (_image l) k2 in
  let '(state_, k4) := pop "state" (_state l) k3 in
  let '(underline_, k5) := pop "underline" (_underline l) k4 in
  let '(hovercolor_, k6) := pop "hovercolor" (_hovercolor l) k5 in
  let '(hoverbackground_, k7) := pop "hoverbackground" (_hoverbackground l) k6 in
  let '(bordercolor_, k8) := pop "bordercolor" (_bordercolor l) k7 in
  let borderwidth_ := get "borderwidth" (_borderwidth l) k8 in
  let border_radius_ := get "border_radius" (_border_radius l) k8 in
  base ← Widget_configure_set k8 (widget l);
  Ok {| _text := text_; _wraplength := _wraplength l; _underline := underline_;
        _font := font_; _image := image_;
        _border_radius := border_radius_; _borderwidth := borderwidth_;
        _foreground := _foreground l; _background := _background l;
        _hovercolor := hovercolor_; _hoverbackground := hoverbackground_;
        _bordercolor := bordercolor_; _state := state_; widget := base |}.

(** [_configure_get_(attribute)]. *)
Definition _configure_get_ (attribute : string) (l : Label) : result pyval :=
  if String.eqb attribute "text" then Ok (_text l)
  else if String.eqb attribute "font" then Ok (_font l)
  else if String.eqb attribute "image" then Ok (_image l)
  else if String.eqb attribute "state" then Ok (_state l)
  else if String.eqb attribute "underline" then Ok (_underline l)
  else if String.eqb attribute "hovercolor" then Ok (_hovercolor l)
  else if String.eqb attribute "hoverbackground" then Ok (_hoverbackground l)
  else if String.eqb attribute "bordercolor" then Ok (_bordercolor l)
  else if String.eqb attribute "border_radius" then Ok (_border_radius l)
  else Widget_configure_get attribute (widget l).

(** [_perform_draw_(surface)]: the calls issued, in program order.  The
    routine draws on [self._master], which belongs to the base and is taken
    to be a surface; its [surface] argument is not used.  [self._font.render]
    raises AttributeError when the font field holds no font object, and
    [self._image.get_rect] when a truthy image field holds no surface; the
    draw ends there.  A call that is made is taken to return: what pygame
    itself rejects among the arguments is not modelled. *)
Definition _perform_draw_ (surface : pyval) (l : Label) : list call :=
  let foreground := _get_state_foreground_ l in
  let background := _get_state_background_ l in
  let master_ := _master (widget l) in
  let rect_ := _rect (widget l) in
  [ pygame_draw_rect master_ background rect_ None (Some (_border_radius l));
    pygame_draw_rect master_ (_bordercolor l) rect_
      (Some (_borderwidth l)) (Some (_border_radius l)) ]
  ++ (if instance_of "Font" (_font l)
      then
        let btn_text := Font_render (_font l) (_text l) true foreground in
        let btn_text_rect := set_center (center rect_) (get_rect btn_text) in
        [ render (_font l) (_text l) true foreground;
          blit master_ btn_text btn_text_rect ]
        ++ (if truthy (_image l)
            then
              if instance_of "Surface" (_image l)
              then
                let img_rect := get_rect (_image l) in
                let img_rect := set_centery (centery rect_) img_rect in
                let img_rect := set_left (left rect_ + 8) img_rect in
                [ blit master_ (_image l) img_rect ]
              else [ raises (AttributeError "get_rect") ]
            else [])
      else [ raises (AttributeError "render") ]).

(** [_handle_event_(event)]. *)
Definition _handle_event_ (event : pyval) (l : Label) : Label :=
  with_widget (_check_hover event (widget l)) l.

(** [_perform_update_(delta)]. *)
Definition _perform_update_ (delta : Q) (l : Label) : Label :=
  _set_state_ PNone l.

(** Modelled from the spec: [Widget.configure], the entry point of the
    configure protocol, is defined in the base class and not in [label.py].
    The spec describes the protocol as [get(name) -> value] and
    [set(name, value)*]: a call that names an attribute reads it through
    [_configure_get_], a call with [config=None] writes its keyword mapping
    through [_configure_set_] and returns nothing. *)
Definition configure (config : option string) (kwargs0 : kwargs) (l : Label)
    : result (pyval * Label) :=
  match config with
  | Some attribute => v ← _configure_get_ attribute l; Ok (v, l)
  | None => l' ← _configure_set_ kwargs0 l; Ok (PNone, l')
  end.

(** [get_text()]. *)
Definition get_text (l : Label) : result pyval :=
  fst <$> configure (Some "text") ∅ l.

(** [set_text(new_text)]. *)
Definition set_text (new_text : pyval) (l : Label) : result Label :=
  snd <$> configure None {[ "text" := new_text ]} l.

End Label.

Arguments Label W : clear implicits.

(** ** Operations on a constructed Label *)

(** What can be done to a Label once it is built: the per-frame hooks, the
    two text accessors, [_set_state_] and the two bridge methods. *)
Inductive op :=
| Update (delta : Q)
| HandleEvent (event : pyval)
| Draw (surface : pyval)
| GetText
| SetText (new_text : pyval)
| SetState (state : pyval)
| ConfigureGet (attribute : string)
| ConfigureSet (kwargs0 : kwargs).

Section Run.
Context `{Pygame} {W : Type} `{WidgetBase W}.

(** The Label after one operation.  Reading returns it as it was, and so
    does a draw, which assigns nothing whether it completes or raises; a text
    accessor or bridge call that raises yields no Label. *)
Definition run_op (o : op) (l : Label W) : result (Label W) :=
  match o with
  | Update delta => Ok (_perform_update_ delta l)
  | HandleEvent event => Ok (_handle_event_ event l)
  | Draw surface => let _ := _perform_draw_ surface l in Ok l
  | GetText => _ ← get_text l; Ok l
  | SetText new_text => set_text new_text l
  | SetState state => Ok (_set_state_ state l)
  | ConfigureGet attribute => _ ← _configure_get_ attribute l; Ok l
  | ConfigureSet kwargs0 => _configure_set_ kwargs0 l
  end.

Fixpoint run (ops : list op) (l : Label W) : result (Label W) :=
  match ops with
  | [] => Ok l
  | o :: ops' => l' ← run_op o l; run ops' l'
  end.

(** The operations that store a caller's value in the state field:
    [_set_state_] with an argument, and [_configure_set_] with a ["state"]
    entry. *)
Definition writes_state (o : op) : bool :=
  match o with
  | SetState state => negb (is_None state)
  | ConfigureSet kwargs0 => bool_decide (is_Some (kwargs0 !! "state"))
  | _ => false
  end.

(** The operations that derive the state from the hover flag. *)
Definition derives_state (o : op) : bool :=
  match o with
  | Update _ => true
  | SetState state => is_None state
  | _ => false
  end.


(** The state the hover flag selects. *)
Definition hover_state (l : Label W) : pyval :=
  PStr (if hovered (widget l) then "hovered" else "normal").

(** The names [_configure_set_] pops, and the mapping it hands to the base:
    the caller's mapping without them. *)
Definition popped : list string :=
  ["text"; "font"; "image"; "state"; "underline"; "hovercolor"; "hoverbackground";
   "bordercolor"].

Definition forwarded (m : kwargs) : kwargs := foldl (λ m' k, delete k m') m popped.

(** The state field holds one of the two visual modes. *)
Definition two_state (l : Label W) : Prop :=
  _state l = PStr "normal" ∨ _state l = PStr "hovered".


Definition with_text (v : pyval) (l : Label W) : Label W :=
  {| _text := v; _wraplength := _wraplength l; _underline := _underline l;
     _font := _font l; _image := _image l;
     _border_radius := _border_radius l; _borderwidth := _borderwidth l;
     _foreground := _foreground l; _background := _background l;
     _hovercolor := _hovercolor l; _hoverbackground := _hoverbackground l;
     _bordercolor := _bordercolor l; _state := _state l; widget := widget l |}.

Definition with_borderwidth (v : pyval) (l : Label W) : Label W :=
  {| _text := _text l; _wraplength := _wraplength l; _underline := _underline l;
     _font := _font l; _image := _image l;
     _border_radius := _border_radius l; _borderwidth := v;
     _foreground := _foreground l; _background := _background l;
     _hovercolor := _hovercolor l; _hoverbackground := _hoverbackground l;
     _bordercolor := _bordercolor l; _state := _state l; widget := widget l |}.

Definition with_border_radius (v : pyval) (l : Label W) : Label W :=
  {| _text := _text l; _wraplength := _wraplength l; _underline := _underline l;
     _font := _font l; _image := _image l;
     _border_radius := v; _borderwidth := _borderwidth l;
     _foreground := _foreground l; _background := _background l;
     _hovercolor := _hovercolor l; _hoverbackground := _hoverbackground l;
     _bordercolor := _bordercolor l; _state := _state l; widget := widget l |}.


(** The names [Label.__init__] pops from its keyword arguments, and the
    mapping it hands to [Widget.__init__]: the caller's mapping without
    them. *)
Definition init_popped : list string :=
  ["wraplength"; "underline"; "border_radius"; "borderwidth"; "hovercolor";
   "hoverbackground"; "bordercolor"; "state"].

Definition init_forwarded (m : kwargs) : kwargs :=
  foldl (λ m' k, delete k m') m init_popped.

(** The names [_configure_get_] has a case for. *)
Definition answered : list string :=
  ["text"; "font"; "image"; "state"; "underline"; "hovercolor"; "hoverbackground";
   "bordercolor"; "border_radius"].

(** The surface a call draws on; a text render draws on none, nor does an
    exception. *)
Definition call_target (c : call) : option pyval :=
  match c with
  | draw_rect surface _ _ _ _ => Some surface
  | render _ _ _ _ => None
  | blit dest _ _ => Some dest
  | raises _ => None
  end.


End Run.

(** ** A concrete world to run the model in *)

Module World.

(** A small pygame: a colour is a tuple of three or four integers and
    becomes the four-tuple pygame holds, a system font is named by its size,
    rendered text is eight units wide per character and sixteen high. *)
Definition Color (v : pyval) : result pyval :=
  match v with
  | PTuple [r; g; b] => Ok (PTuple [r; g; b; 255])
  | PTuple [r; g; b; a] => Ok (PTuple [r; g; b; a])
  | _ => Raise ValueError
  end.

Definition SysFont (family size : pyval) : result pyval :=
  match size with
  | PInt n => Ok (PObject "Font" (Z.to_N n))
  | _ => Raise TypeError
  end.

Definition text_surface (font text : pyval) (antialias : bool) (color : pyval) : pyval :=
  match text with
  | PStr s => PObject "Surface" (N.of_nat (String.length s))
  | _ => PObject "Surface" 0
  end.

Definition surface_size (surface : pyval) : Z * Z :=
  match surface with
  | PObject _ n => (8 * Z.of_N n, 16)
  | _ => (0, 0)
  end.

#[global] Instance pygame : Pygame.
Proof.
  refine {| pygame_Color := Color; pygame_font_SysFont := SysFont;
            Font_render := text_surface; Surface_get_size := surface_size |}.
  intros family size f. destruct size; simpl; congruence.
Defined.

(** Modelled from the spec: the [Widget] base class and [HoverableMixin] are
    not part of [label.py].  The spec gives the base the geometry ([_rect]),
    the parent and a configure bridge to which names the Label does not
    handle are silently forwarded, and the mixin a flag that tracks whether
    the pointer overlaps the bounding rectangle.  This stand-in keeps just
    that: a rectangle of the given size at the origin, a flag that starts
    false and follows the pointer position carried by an event, a set bridge
    that accepts every mapping and a get bridge that knows ["master"]. *)
Record widget_state := {
  parent : pyval;
  bounds : Rect;
  hover : bool;
}.

Definition init (master width height fg bg : pyval) (kwargs0 : kwargs)
    : result widget_state :=
  match width, height with
  | PInt wd, PInt ht =>
      Ok {| parent := master; bounds := {| x := 0; y := 0; w := wd; h := ht |};
            hover := false |}
  | _, _ => Raise TypeError
  end.

Definition collidepoint (r : Rect) (px py : Z) : bool :=
  (x r <=? px) && (px <? x r + w r) && (y r <=? py) && (py <? y r + h r).

Definition check_hover (event : pyval) (b : widget_state) : widget_state :=
  match event with
  | PTuple [px; py] =>
      {| parent := parent b; bounds := bounds b; hover := collidepoint (bounds b) px py |}
  | _ => b
  end.

Definition base_get (attribute : string) (b : widget_state) : result pyval :=
  if String.eqb attribute "master" then Ok (parent b)
  else Raise (AttributeError attribute).

#[global] Instance base : WidgetBase widget_state :=
  {| Widget__init__ := init;
     HoverableMixin__init__ := λ b, b;
     Widget_configure_set := λ _ b, Ok b;
     Widget_configure_get := base_get;
     _check_hover := check_hover;
     hovered := hover;
     _master := parent;
     _rect := bounds |}.

(** A theme registry with the keys the constructor reads; the ["normal"]
    sub-dictionary carries a radius and a border colour of its own, which
    the constructor does not read. *)
Definition theme : pyval :=
  PDict {[
    "font" := PDict {[ "family" := PStr "arial"; "size" := PInt 14 ]};
    "Label" := PDict {[
      "border_radius" := PInt 7;
      "borderwidth" := PInt 2;
      "bordercolor" := PTuple [9; 9; 9];
      "normal" := PDict {[
        "foreground" := PTuple [0; 0; 0];
        "background" := PTuple [255; 255; 255];
        "border_radius" := PInt 1;
        "bordercolor" := PTuple [1; 1; 1] ]};
      "hovered" := PDict {[
        "foreground" := PTuple [10; 10; 10];
        "background" := PTuple [200; 200; 200] ]} ]} ]}.

(** [Label()] over that theme, written out. *)
Definition label0 : Label widget_state :=
  {| _text := PStr "Label"; _wraplength := PBool true; _underline := PBool false;
     _font := PObject "Font" 14; _image := PNone;
     _border_radius := PInt 7; _borderwidth := PInt 2;
     _foreground := PTuple [0; 0; 0; 255]; _background := PTuple [255; 255; 255; 255];
     _hovercolor := PTuple [10; 10; 10; 255];
     _hoverbackground := PTuple [200; 200; 200; 255];
     _bordercolor := PTuple [9; 9; 9; 255]; _state := PStr "normal";
     widget := {| parent := PNone; bounds := {| x := 0; y := 0; w := 200; h := 40 |};
                  hover := false |} |}.



(** The "Label" dictionary of [theme] and the registry around it. *)
Definition styles : gmap string pyval :=
  {[ "border_radius" := PInt 7;
     "borderwidth" := PInt 2;
     "bordercolor" := PTuple [9; 9; 9];
     "normal" := PDict {[
       "foreground" := PTuple [0; 0; 0];
       "background" := PTuple [255; 255; 255] ]};
     "hovered" := PDict {[
       "foreground" := PTuple [10; 10; 10];
       "background" := PTuple [200; 200; 200] ]} ]}.

Definition registry : gmap string pyval :=
  {[ "font" := PDict {[ "family" := PStr "arial"; "size" := PInt 14 ]};
     "Label" := PDict styles ]}.

(** [Label(font=f, foreground=(1, 2, 3), background=(4, 5, 6),
    border_radius=3, hovercolor=None, cursor="hand")]. *)
Definition args_override : init_args :=
  {| master := PNone; width := PInt 200; height := PInt 40; text := PStr "Label";
     font := PObject "Font" 3; image := PNone;
     background := PTuple [4; 5; 6]; foreground := PTuple [1; 2; 3];
     kw := {[ "border_radius" := PInt 3; "hovercolor" := PNone;
              "cursor" := PStr "hand" ]} |}.

End World.

(** * Properties *)

Example init_default : Label__init__ World.theme default_args = Ok World.label0.
Proof. vm_compute. reflexivity. Qed.

Section Properties.
Context `{Pygame} {W : Type} `{WidgetBase W}.
Implicit Types (l : Label W) (v : pyval) (s : string).




Lemma is_None_false v : is_None v = false ↔ v ≠ PNone.
Proof. destruct v; simpl; split; congruence. Qed.

Lemma set_state_None l : _set_state_ PNone l = with_state (hover_state l) l.
Proof. reflexivity. Qed.

Lemma set_state_value v l : v ≠ PNone → _set_state_ v l = with_state v l.
Proof. intros Hv. unfold _set_state_. apply is_None_false in Hv. by rewrite Hv. Qed.

Lemma widget_set_state v l : widget (_set_state_ v l) = widget l.
Proof. unfold _set_state_. by destruct (is_None v). Qed.

(** C1: the per-tick update overwrites the state field, whatever it held,
    with "hovered" when the hover flag is true at the call and with "normal"
    otherwise, and touches nothing else; a state forced through
    [_set_state_] is gone after the next update. *)
Theorem perform_update_state l (delta : Q) :
  _state (_perform_update_ delta l)
    = PStr (if hovered (widget l) then "hovered" else "normal") ∧
  _perform_update_ delta l = with_state (hover_state l) l ∧
  ∀ forced, _state (_perform_update_ delta (_set_state_ forced l))
    = PStr (if hovered (widget l) then "hovered" else "normal").
Proof.
  split; [reflexivity | split; [reflexivity |]].
  intros forced. unfold _perform_update_.
  rewrite set_state_None. unfold hover_state. simpl.
  by rewrite widget_set_state.
Qed.

(** The calls of a draw, as one list. *)
Lemma perform_draw_calls surface l :
  _perform_draw_ surface l =
    [ draw_rect (_master (widget l)) (_get_state_background_ l) (_rect (widget l))
        (PInt 0) (_border_radius l);
      draw_rect (_master (widget l)) (_bordercolor l) (_rect (widget l))
        (_borderwidth l) (_border_radius l) ]
    ++ (if instance_of "Font" (_font l)
        then
          [ render (_font l) (_text l) true (_get_state_foreground_ l);
            blit (_master (widget l))
              (Font_render (_font l) (_text l) true (_get_state_foreground_ l))
              (set_center (center (_rect (widget l)))
                 (get_rect (Font_render (_font l) (_text l) true
                              (_get_state_foreground_ l)))) ]
          ++ (if truthy (_image l)
              then
                if instance_of "Surface" (_image l)
                then [ blit (_master (widget l)) (_image l)
                         (set_left (left (_rect (widget l)) + 8)
                            (set_centery (centery (_rect (widget l)))
                               (get_rect (_image l)))) ]
                else [ raises (AttributeError "get_rect") ]
              else [])
        else [ raises (AttributeError "render") ]).
Proof. reflexivity. Qed.






(** C8: the border rectangle is always the second call of a draw, in the
    border colour, with width [_borderwidth] and the radius of the background
    fill; with a border width of 0 the call issued is a width-0 rectangle
    call, the very form the routine uses to fill the background, so it paints
    the whole rounded rectangle in the border colour instead of leaving no
    visible stroke. *)
Theorem border_call_width_zero surface l :
  (_perform_draw_ surface l) !! 1%nat
    = Some (draw_rect (_master (widget l)) (_bordercolor l) (_rect (widget l))
              (_borderwidth l) (_border_radius l)) ∧
  (_perform_draw_ surface (with_borderwidth (PInt 0) l)) !! 0%nat
    = Some (pygame_draw_rect (_master (widget l)) (_get_state_background_ l)
              (_rect (widget l)) None (Some (_border_radius l))) ∧
  (_perform_draw_ surface (with_borderwidth (PInt 0) l)) !! 1%nat
    = Some (pygame_draw_rect (_master (widget l)) (_bordercolor l)
              (_rect (widget l)) None (Some (_border_radius l))).
Proof. repeat split. Qed.


End Properties.

Section Configure.
Context `{Pygame} {W : Type} `{WidgetBase W}.
Implicit Types (l : Label W) (v : pyval) (k : string) (m : kwargs).

Lemma get_None k v m : m !! k = None → get k v m = v.
Proof. unfold get. by intros ->. Qed.

Lemma get_Some k v v' m : m !! k = Some v' → get k v m = v'.
Proof. unfold get. by intros ->. Qed.

Lemma get_delete_ne k k' v m : k ≠ k' → get k v (delete k' m) = get k v m.
Proof. intros Hne. unfold get. by rewrite lookup_delete_ne. Qed.

Lemma forwarded_lookup m k :
  forwarded m !! k = if bool_decide (k ∈ popped) then None else m !! k.
Proof.
  unfold forwarded, popped. simpl.
  case_bool_decide as Hk.
  - repeat (apply elem_of_cons in Hk as [-> | Hk];
            [ repeat first [ apply lookup_delete_eq | rewrite lookup_delete_ne by done ] |]).
    by apply elem_of_nil in Hk.
  - rewrite !lookup_delete_ne; [done | ..]; intros <-; apply Hk; set_solver.
Qed.

(** [_configure_set_] in one step: every attribute it assigns is read from
    the caller's mapping, and the base receives [forwarded]. *)
Lemma configure_set_eq m l :
  _configure_set_ m l =
    base ← Widget_configure_set (forwarded m) (widget l);
    Ok {| _text := get "text" (_text l) m; _wraplength := _wraplength l;
          _underline := get "underline" (_underline l) m;
          _font := get "font" (_font l) m; _image := get "image" (_image l) m;
          _border_radius := get "border_radius" (_border_radius l) m;
          _borderwidth := get "borderwidth" (_borderwidth l) m;
          _foreground := _foreground l; _background := _background l;
          _hovercolor := get "hovercolor" (_hovercolor l) m;
          _hoverbackground := get "hoverbackground" (_hoverbackground l) m;
          _bordercolor := get "bordercolor" (_bordercolor l) m;
          _state := get "state" (_state l) m; widget := base |}.
Proof.
  unfold _configure_set_, pop, forwarded, popped. simpl.
  by rewrite !get_delete_ne by done.
Qed.

Lemma forwarded_owned v k : k ∈ popped → forwarded {[ k := v ]} = ∅.
Proof.
  intros Hk. apply map_eq. intros k'.
  rewrite forwarded_lookup, lookup_empty.
  case_bool_decide as Hk'; [done |].
  apply lookup_singleton_ne. by intros ->.
Qed.

Lemma forwarded_other v k : k ∉ popped → forwarded {[ k := v ]} = {[ k := v ]}.
Proof.
  intros Hk. apply map_eq. intros k'.
  rewrite forwarded_lookup.
  case_bool_decide as Hk'; [| done].
  symmetry. apply lookup_singleton_ne. by intros ->.
Qed.

Lemma get_singleton_eq k v v' : get k v {[ k := v' ]} = v'.
Proof. apply get_Some, lookup_singleton_eq. Qed.

Lemma get_singleton_ne k k' v v' : k ≠ k' → get k v {[ k' := v' ]} = v.
Proof. intros Hne. apply get_None. by apply lookup_singleton_ne. Qed.

(** C4: with a base bridge that leaves the widget as it is when handed the
    empty mapping, [set_text(s)] changes the text attribute to [s] and
    nothing else, [get_text()] then returns [s] and changes nothing; this
    holds for every string, the empty one included. *)
Theorem set_text_get_text s l :
  Widget_configure_set ∅ (widget l) = Ok (widget l) →
  set_text (PStr s) l = Ok (with_text (PStr s) l) ∧
  configure (Some "text") ∅ (with_text (PStr s) l)
    = Ok (PStr s, with_text (PStr s) l) ∧
  (set_text (PStr s) l ≫= get_text) = Ok (PStr s).
Proof.
  intros Hbase.
  assert (Hset : set_text (PStr s) l = Ok (with_text (PStr s) l)).
  { unfold set_text, configure. rewrite configure_set_eq.
    rewrite forwarded_owned by (unfold popped; set_solver).
    rewrite Hbase. simpl.
    rewrite get_singleton_eq, !get_singleton_ne by done.
    reflexivity. }
  split; [exact Hset |]. split; [reflexivity |].
  rewrite Hset. reflexivity.
Qed.

(** C7: the get bridge has no case for "borderwidth" or "wraplength" and
    hands both to the base; the set bridge never reads "wraplength", and it
    reads "borderwidth" and "border_radius" without removing them, so all
    three reach the base as well. *)
Theorem configure_bridge_gaps v l :
  _configure_get_ "borderwidth" l = Widget_configure_get "borderwidth" (widget l) ∧
  _configure_get_ "wraplength" l = Widget_configure_get "wraplength" (widget l) ∧
  _configure_set_ {[ "wraplength" := v ]} l
    = (base ← Widget_configure_set {[ "wraplength" := v ]} (widget l);
       Ok (with_widget base l)) ∧
  _configure_set_ {[ "borderwidth" := v ]} l
    = (base ← Widget_configure_set {[ "borderwidth" := v ]} (widget l);
       Ok (with_widget base (with_borderwidth v l))) ∧
  _configure_set_ {[ "border_radius" := v ]} l
    = (base ← Widget_configure_set {[ "border_radius" := v ]} (widget l);
       Ok (with_widget base (with_border_radius v l))).
Proof.
  split; [reflexivity |]. split; [reflexivity |].
  repeat split; rewrite configure_set_eq;
    rewrite forwarded_other by (unfold popped; set_solver);
    rewrite ?get_singleton_eq, !get_singleton_ne by done;
    reflexivity.
Qed.

(** The names the bridge does handle: the get bridge answers nine names from
    the Label's own attributes, and the set bridge removes eight names from
    the mapping before the base sees it. *)
Lemma configure_get_owned l :
  _configure_get_ "text" l = Ok (_text l) ∧
  _configure_get_ "font" l = Ok (_font l) ∧
  _configure_get_ "image" l = Ok (_image l) ∧
  _configure_get_ "state" l = Ok (_state l) ∧
  _configure_get_ "underline" l = Ok (_underline l) ∧
  _configure_get_ "hovercolor" l = Ok (_hovercolor l) ∧
  _configure_get_ "hoverbackground" l = Ok (_hoverbackground l) ∧
  _configure_get_ "bordercolor" l = Ok (_bordercolor l) ∧
  _configure_get_ "border_radius" l = Ok (_border_radius l).
Proof. repeat split. Qed.

Lemma configure_set_consumes m k : k ∈ popped → forwarded m !! k = None.
Proof. intros Hk. rewrite forwarded_lookup. by rewrite bool_decide_eq_true_2. Qed.

Lemma configure_set_forwards m k : k ∉ popped → forwarded m !! k = m !! k.
Proof. intros Hk. rewrite forwarded_lookup. by rewrite bool_decide_eq_false_2. Qed.

End Configure.

Section Construction.
Context `{Pygame} {W : Type} `{WidgetBase W}.
Implicit Types (l : Label W) (v : pyval) (theme : pyval) (a : init_args).

Lemma bind_Ok_inv {A B} (m : result A) (f : A → result B) (b : B) :
  m ≫= f = Ok b → ∃ x, m = Ok x ∧ f x = Ok b.
Proof. destruct m as [x | e]; [eauto | discriminate]. Qed.

Ltac bind_inv Hi :=
  let E := fresh "E" in
  let x := fresh "x" in
  apply bind_Ok_inv in Hi as (x & E & Hi).

(** What a constructor call that returns has read and built. *)
Lemma init_inv theme a l :
  Label__init__ theme a = Ok l →
  ∃ family size font_ radius bwidth fg_spec fg bg_spec bg hover_fg hfg hover_bg hbg
    border bc base,
    subscripts theme ["font"; "family"] = Ok family ∧
    subscripts theme ["font"; "size"] = Ok size ∧
    pygame_font_SysFont family size = Ok font_ ∧
    subscripts theme ["Label"; "border_radius"] = Ok radius ∧
    subscripts theme ["Label"; "borderwidth"] = Ok bwidth ∧
    (if is_None (foreground a)
     then subscripts theme ["Label"; "normal"; "foreground"]
     else Ok (foreground a)) = Ok fg_spec ∧
    pygame_Color fg_spec = Ok fg ∧
    (if is_None (background a)
     then subscripts theme ["Label"; "normal"; "background"]
     else Ok (background a)) = Ok bg_spec ∧
    pygame_Color bg_spec = Ok bg ∧
    subscripts theme ["Label"; "hovered"; "foreground"] = Ok hover_fg ∧
    pygame_Color hover_fg = Ok hfg ∧
    subscripts theme ["Label"; "hovered"; "background"] = Ok hover_bg ∧
    pygame_Color hover_bg = Ok hbg ∧
    subscripts theme ["Label"; "bordercolor"] = Ok border ∧
    pygame_Color border = Ok bc ∧
    l = {| _text := text a;
           _wraplength := get "wraplength" (PBool true) (kw a);
           _underline := get "underline" (PBool false) (kw a);
           _font := if is_None (font a) then font_ else font a;
           _image := image a;
           _border_radius := get "border_radius" radius (kw a);
           _borderwidth := get "borderwidth" bwidth (kw a);
           _foreground := fg; _background := bg;
           _hovercolor := get "hovercolor" hfg (kw a);
           _hoverbackground := get "hoverbackground" hbg (kw a);
           _bordercolor := get "bordercolor" bc (kw a);
           _state := get "state" (PStr "normal") (kw a);
           widget := HoverableMixin__init__ base |}.
Proof.
  unfold Label__init__, pop. cbv zeta. intros Hi.
  do 16 bind_inv Hi.
  injection Hi as <-.
  eexists _, _, _, _, _, _, _, _, _, _, _, _, _, _, _, _.
  repeat (split; [eassumption |]).
  by rewrite !get_delete_ne by done.
Qed.

(** C5: a style value left out at construction is read from the theme
    registry under "Label": the two normal colours under "Label"/"normal",
    the two hover colours under "Label"/"hovered", and the border radius, the
    border width and the border colour directly under "Label", with no
    sub-state; the colours go through [pygame.Color]. *)
Theorem init_theme_defaults theme a l :
  Label__init__ theme a = Ok l →
  (kw a !! "border_radius" = None →
     subscripts theme ["Label"; "border_radius"] = Ok (_border_radius l)) ∧
  (kw a !! "borderwidth" = None →
     subscripts theme ["Label"; "borderwidth"] = Ok (_borderwidth l)) ∧
  (kw a !! "bordercolor" = None →
     ∃ v, subscripts theme ["Label"; "bordercolor"] = Ok v ∧
          pygame_Color v = Ok (_bordercolor l)) ∧
  (foreground a = PNone →
     ∃ v, subscripts theme ["Label"; "normal"; "foreground"] = Ok v ∧
          pygame_Color v = Ok (_foreground l)) ∧
  (background a = PNone →
     ∃ v, subscripts theme ["Label"; "normal"; "background"] = Ok v ∧
          pygame_Color v = Ok (_background l)) ∧
  (kw a !! "hovercolor" = None →
     ∃ v, subscripts theme ["Label"; "hovered"; "foreground"] = Ok v ∧
          pygame_Color v = Ok (_hovercolor l)) ∧
  (kw a !! "hoverbackground" = None →
     ∃ v, subscripts theme ["Label"; "hovered"; "background"] = Ok v ∧
          pygame_Color v = Ok (_hoverbackground l)).
Proof.
  intros Hi. apply init_inv in Hi
    as (family & size & font_ & radius & bwidth & fg_spec & fg & bg_spec & bg
        & hover_fg & hfg & hover_bg & hbg & border & bc & base
        & _ & _ & _ & Hr & Hw & Hfs & Hfg & Hbs & Hbg & Hhf & Hhfc & Hhb & Hhbc
        & Hb & Hbc & ->).
  simpl. repeat split.
  - intros Hk. by rewrite get_None.
  - intros Hk. by rewrite get_None.
  - intros Hk. rewrite get_None by done. eauto.
  - intros Hk. rewrite Hk in Hfs. simpl in Hfs. eauto.
  - intros Hk. rewrite Hk in Hbs. simpl in Hbs. eauto.
  - intros Hk. rewrite get_None by done. eauto.
  - intros Hk. rewrite get_None by done. eauto.
Qed.

End Construction.

Section Invariants.
Context `{Pygame} {W : Type} `{WidgetBase W}.
Implicit Types (l : Label W) (v : pyval) (m : kwargs) (o : op).

(** A configure call with [config=None] that returns has run the set
    bridge. *)
Lemma configure_None_inv m l l' :
  snd <$> configure None m l = Ok l' → _configure_set_ m l = Ok l'.
Proof.
  unfold configure. intros Hc.
  destruct (_configure_set_ m l) as [l0 | e]; simpl in Hc; congruence.
Qed.

(** A configure call that names an attribute returns the Label as it was. *)
Lemma configure_Some_inv k m l v l' :
  configure (Some k) m l = Ok (v, l') → _configure_get_ k l = Ok v ∧ l' = l.
Proof.
  unfold configure. intros Hc.
  destruct (_configure_get_ k l) as [v0 | e]; simpl in Hc; [| discriminate].
  by injection Hc as -> ->.
Qed.

Lemma configure_set_state m l l' :
  _configure_set_ m l = Ok l' → _state l' = get "state" (_state l) m.
Proof.
  rewrite configure_set_eq. intros Hc.
  apply bind_Ok_inv in Hc as (base & _ & [= <-]). reflexivity.
Qed.


Lemma get_text_Ok l : get_text l = Ok (_text l).
Proof. reflexivity. Qed.

(** One operation and the state field: an operation that derives the state
    sets it from the hover flag, an operation that neither derives nor
    writes it leaves it alone. *)
Lemma run_op_state o l l' :
  run_op o l = Ok l' →
  (derives_state o = true → _state l' = hover_state l) ∧
  (derives_state o = false → writes_state o = false → _state l' = _state l).
Proof.
  destruct o as [delta | event | surface | | new_text | state | k | m]; simpl; intros Hr.
  - injection Hr as <-. split; [reflexivity | discriminate].
  - injection Hr as <-. split; [discriminate | reflexivity].
  - injection Hr as <-. split; [discriminate | reflexivity].
  - injection Hr as <-. split; [discriminate | reflexivity].
  - apply configure_None_inv, configure_set_state in Hr.
    split; [discriminate |]. intros _ _. by rewrite Hr, get_singleton_ne.
  - injection Hr as <-. unfold _set_state_.
    destruct (is_None state); split; try discriminate; reflexivity.
  - apply bind_Ok_inv in Hr as (v & _ & [= <-]). split; [discriminate | reflexivity].
  - apply configure_set_state in Hr.
    split; [discriminate |]. intros _ Hw.
    apply bool_decide_eq_false in Hw. rewrite Hr. apply get_None.
    destruct (m !! "state") eqn:E; [| done]. destruct Hw. eauto.
Qed.


Lemma hover_state_two l : hover_state l = PStr "normal" ∨ hover_state l = PStr "hovered".
Proof. unfold hover_state. destruct (hovered (widget l)); auto. Qed.

(** C6: the update, like every operation that derives the state, leaves the
    state field at "normal" or "hovered" as the hover flag says, and without
    a constructor override the initial state is "normal"; event handling,
    drawing, reading, [set_text] and a configure-set without a "state" entry
    leave the field alone, so the two values persist through them.  The
    field is also written, with whatever value is given, by the constructor's
    "state" override, by a configure-set with a "state" entry and by
    [_set_state_] with an argument. *)
Theorem state_transitions :
  (∀ theme a l, Label__init__ theme a = Ok l →
     kw a !! "state" = None → _state l = PStr "normal") ∧
  (∀ o l l', run_op o l = Ok l' → derives_state o = true →
     _state l' = PStr (if hovered (widget l) then "hovered" else "normal")) ∧
  (∀ o l l', run_op o l = Ok l' → derives_state o = false → writes_state o = false →
     _state l' = _state l) ∧
  (∀ ops l l', Forall (λ o, writes_state o = false) ops →
     two_state l → run ops l = Ok l' → two_state l') ∧
  (∀ theme a l v, Label__init__ theme a = Ok l → kw a !! "state" = Some v → _state l = v) ∧
  (∀ m l l' v, _configure_set_ m l = Ok l' → m !! "state" = Some v → _state l' = v) ∧
  (∀ l v, v ≠ PNone → _state (_set_state_ v l) = v).
Proof.
  repeat apply conj.
  - intros theme a l Hi Hk. apply init_inv in Hi
      as (? & ? & ? & ? & ? & ? & ? & ? & ? & ? & ? & ? & ? & ? & ? & ? & Hi).
    do 15 destruct Hi as [_ Hi]. subst l. simpl. by apply get_None.
  - intros o l l' Hr Hd. by apply (run_op_state o l l' Hr).
  - intros o l l' Hr Hd Hw. by apply (run_op_state o l l' Hr).
  - intros ops. induction ops as [| o ops IH]; intros l l' Hall Hl Hr.
    + simpl in Hr. by injection Hr as <-.
    + simpl in Hr. apply bind_Ok_inv in Hr as (l1 & Ho & Hr).
      apply Forall_cons in Hall as [Hw Hall].
      apply (IH l1 l' Hall); [| exact Hr].
      destruct (run_op_state o l l1 Ho) as [Hd Hk].
      unfold two_state.
      destruct (derives_state o).
      * rewrite Hd by done. apply hover_state_two.
      * by rewrite Hk.
  - intros theme a l v Hi Hk. apply init_inv in Hi
      as (? & ? & ? & ? & ? & ? & ? & ? & ? & ? & ? & ? & ? & ? & ? & ? & Hi).
    do 15 destruct Hi as [_ Hi]. subst l. simpl. by apply get_Some.
  - intros m l l' v Hc Hk. apply configure_set_state in Hc. rewrite Hc.
    by apply get_Some.
  - intros l v Hv. by rewrite set_state_value.
Qed.


End Invariants.

(** * The properties at the concrete world *)

(** The spec's sequence: the pointer enters, a tick, the pointer leaves, a
    tick; the state goes to "hovered" and back to "normal". *)
Example hover_then_leave :
  _state <$> run [HandleEvent (PTuple [10; 10]); Update 0] World.label0
    = Ok (PStr "hovered") ∧
  _state <$> run [HandleEvent (PTuple [10; 10]); Update 0;
                  HandleEvent (PTuple [500; 500]); Update 0] World.label0
    = Ok (PStr "normal").
Proof. split; vm_compute; reflexivity. Qed.

(** The spec's scenario: [Label(text="Hi", width=100, height=40)], hover flag
    false, a tick, a draw: the fill is in the theme's normal background, the
    text in its normal foreground, and no image is blitted. *)
Example scenario_hi :
  (l ← Label__init__ World.theme
         {| master := PNone; width := PInt 100; height := PInt 40; text := PStr "Hi";
            font := PNone; image := PNone; background := PNone; foreground := PNone;
            kw := ∅ |};
   Ok (_perform_draw_ PNone (_perform_update_ 0 l)))
  = Ok [ draw_rect PNone (PTuple [255; 255; 255; 255])
           {| x := 0; y := 0; w := 100; h := 40 |} (PInt 0) (PInt 7);
         draw_rect PNone (PTuple [9; 9; 9; 255])
           {| x := 0; y := 0; w := 100; h := 40 |} (PInt 2) (PInt 7);
         render (PObject "Font" 14) (PStr "Hi") true (PTuple [0; 0; 0; 255]);
         blit PNone (PObject "Surface" 2) {| x := 42; y := 12; w := 16; h := 16 |} ].
Proof. vm_compute. reflexivity. Qed.

(** A draw at the edge of pygame's coordinates: an image blitted 8 units
    right of a left edge at 2^31 - 4 lands at the wrapped position; and an
    image that is a file name, not a surface, ends the draw after the text
    blit. *)
Example draw_edges :
  left (set_left (2147483644 + 8) {| x := 0; y := 0; w := 24; h := 16 |})
    = -2147483644 ∧
  _perform_draw_ PNone
      {| _text := PStr "Hi"; _wraplength := PBool true; _underline := PBool false;
         _font := PObject "Font" 14; _image := PStr "icon.png";
         _border_radius := PInt 7; _borderwidth := PInt 2;
         _foreground := PTuple [0; 0; 0; 255];
         _background := PTuple [255; 255; 255; 255];
         _hovercolor := PTuple [10; 10; 10; 255];
         _hoverbackground := PTuple [200; 200; 200; 255];
         _bordercolor := PTuple [9; 9; 9; 255]; _state := PStr "normal";
         widget := widget World.label0 |} !! 4%nat
    = Some (raises (AttributeError "get_rect")).
Proof. split; vm_compute; reflexivity. Qed.




Lemma set_text_get_text_witness :
  (set_text (PStr "") World.label0 ≫= get_text) = Ok (PStr "").
Proof.
  apply (set_text_get_text "" World.label0). reflexivity.
Defined.


Lemma init_theme_defaults_witness :
  subscripts World.theme ["Label"; "border_radius"] = Ok (_border_radius World.label0) ∧
  ∃ v, subscripts World.theme ["Label"; "hovered"; "background"] = Ok v ∧
       pygame_Color v = Ok (_hoverbackground World.label0).
Proof.
  assert (Hi : Label__init__ World.theme default_args = Ok World.label0)
    by (vm_compute; reflexivity).
  destruct (init_theme_defaults World.theme default_args World.label0 Hi)
    as (Hr & _ & _ & _ & _ & _ & Hhb).
  split; [apply Hr | apply Hhb]; reflexivity.
Defined.

(** C5, as stated, fails: [Label()] reads neither the border radius nor the
    border colour from "Label"/"normal"; over a theme whose "normal" entry
    has a radius and a border colour of its own the Label gets the ones
    directly under "Label". *)
Lemma init_border_not_from_normal :
  Label__init__ World.theme default_args = Ok World.label0 ∧
  kw default_args !! "border_radius" = None ∧
  kw default_args !! "bordercolor" = None ∧
  subscripts World.theme ["Label"; "normal"; "border_radius"] = Ok (PInt 1) ∧
  _border_radius World.label0 = PInt 7 ∧
  subscripts World.theme ["Label"; "normal"; "bordercolor"] = Ok (PTuple [1; 1; 1]) ∧
  pygame_Color (PTuple [1; 1; 1]) = Ok (PTuple [1; 1; 1; 255]) ∧
  _bordercolor World.label0 = PTuple [9; 9; 9; 255].
Proof. repeat split; vm_compute; reflexivity. Qed.

Lemma state_transitions_witness :
  _state World.label0 = PStr "normal" ∧
  two_state (_handle_event_ (PTuple [10; 10]) World.label0).
Proof.
  destruct (@state_transitions World.pygame World.widget_state World.base)
    as (Hinit & _ & _ & Hrun & _).
  split.
  - apply (Hinit World.theme default_args); vm_compute; reflexivity.
  - apply (Hrun [HandleEvent (PTuple [10; 10])] World.label0).
    + repeat constructor.
    + left. reflexivity.
    + reflexivity.
Defined.

(** C6, as stated, fails: with the hover flag false a configure-set moves
    the state from "normal" to "hovered" outside any update, and it stores a
    third value just as well. *)
Lemma state_written_by_configure :
  _state World.label0 = PStr "normal" ∧
  hovered (widget World.label0) = false ∧
  _configure_set_ {[ "state" := PStr "hovered" ]} World.label0
    = Ok (with_state (PStr "hovered") World.label0) ∧
  _configure_set_ {[ "state" := PStr "disabled" ]} World.label0
    = Ok (with_state (PStr "disabled") World.label0) ∧
  ¬ two_state (with_state (PStr "disabled") World.label0).
Proof.
  repeat split; try (vm_compute; reflexivity).
  intros [Hs | Hs]; discriminate Hs.
Qed.



(** * Further properties of the constructor *)

Section ConstructionMore.
Context `{Pygame} {W : Type} `{WidgetBase W}.
Implicit Types (l : Label W) (v : pyval) (theme : pyval) (a : init_args) (m : kwargs).

Lemma init_forwarded_lookup m k :
  init_forwarded m !! k = if bool_decide (k ∈ init_popped) then None else m !! k.
Proof.
  unfold init_forwarded, init_popped. simpl.
  case_bool_decide as Hk.
  - repeat (apply elem_of_cons in Hk as [-> | Hk];
            [ repeat first [ apply lookup_delete_eq | rewrite lookup_delete_ne by done ] |]).
    by apply elem_of_nil in Hk.
  - rewrite !lookup_delete_ne; [done | ..]; intros <-; apply Hk; set_solver.
Qed.

(** X1: the constructor subscripts the theme registry with "font" before it
    looks at its font argument: when that subscript raises (no "font" key, or
    a registry that is no dictionary) the constructor raises the same
    exception, whatever its arguments, a passed font included. *)
Theorem init_needs_theme_font theme a e :
  subscript theme "font" = Raise e →
  Label__init__ theme a = Raise e.
Proof.
  intros Hf. unfold Label__init__, pop, subscripts. simpl.
  by rewrite Hf.
Qed.

(** X2: a default handed to [kwargs.pop] is evaluated before the pop: when
    the theme registry has its font entries but
    [theme["Label"]["border_radius"]] raises, the constructor raises the same
    exception even if the caller overrides the border radius. *)
Theorem init_needs_theme_radius theme a family size font_ e :
  subscripts theme ["font"; "family"] = Ok family →
  subscripts theme ["font"; "size"] = Ok size →
  pygame_font_SysFont family size = Ok font_ →
  subscripts theme ["Label"; "border_radius"] = Raise e →
  Label__init__ theme a = Raise e.
Proof.
  intros Hfam Hsize Hfont Hr. unfold Label__init__, pop. cbv zeta.
  rewrite Hfam. simpl. rewrite Hsize. simpl. rewrite Hfont. simpl.
  by rewrite Hr.
Qed.

(** X3: with a foreground and a background passed, the constructor never
    reads the "normal" entry of the theme's "Label" dictionary: two
    registries that differ only there give the same result. *)
Theorem init_skips_normal (d : gmap string pyval) (dl dl' : gmap string pyval) a :
  d !! "Label" = Some (PDict dl) →
  (∀ k, k ≠ "normal" → dl' !! k = dl !! k) →
  foreground a ≠ PNone →
  background a ≠ PNone →
  Label__init__ (PDict (<["Label" := PDict dl']> d)) a = Label__init__ (PDict d) a.
Proof.
  intros Hl Hsame Hfg Hbg.
  apply is_None_false in Hfg. apply is_None_false in Hbg.
  unfold Label__init__, pop, subscripts, subscript. simpl.
  rewrite Hfg, Hbg.
  rewrite !lookup_insert_eq, Hl. rewrite !(lookup_insert_ne _ "Label") by done.
  simpl. by rewrite !Hsame by done.
Qed.

(** X4: overrides are taken as given.  A foreground or background argument
    goes through [pygame.Color]; a "hovercolor", "hoverbackground",
    "bordercolor", "border_radius", "borderwidth", "wraplength" or
    "underline" entry of the keyword arguments is stored as it is, without
    conversion or check, and the two flags default to true and false. *)
Theorem init_overrides theme a l :
  Label__init__ theme a = Ok l →
  (foreground a ≠ PNone → pygame_Color (foreground a) = Ok (_foreground l)) ∧
  (background a ≠ PNone → pygame_Color (background a) = Ok (_background l)) ∧
  (∀ v, kw a !! "hovercolor" = Some v → _hovercolor l = v) ∧
  (∀ v, kw a !! "hoverbackground" = Some v → _hoverbackground l = v) ∧
  (∀ v, kw a !! "bordercolor" = Some v → _bordercolor l = v) ∧
  (∀ v, kw a !! "border_radius" = Some v → _border_radius l = v) ∧
  (∀ v, kw a !! "borderwidth" = Some v → _borderwidth l = v) ∧
  _wraplength l = get "wraplength" (PBool true) (kw a) ∧
  _underline l = get "underline" (PBool false) (kw a).
Proof.
  intros Hi. apply init_inv in Hi
    as (family & size & font_ & radius & bwidth & fg_spec & fg & bg_spec & bg
        & hover_fg & hfg & hover_bg & hbg & border & bc & base
        & _ & _ & _ & _ & _ & Hfs & Hfg & Hbs & Hbg & _ & _ & _ & _ & _ & _ & ->).
  simpl. repeat split.
  - intros Hn. apply is_None_false in Hn. rewrite Hn in Hfs. by injection Hfs as <-.
  - intros Hn. apply is_None_false in Hn. rewrite Hn in Hbs. by injection Hbs as <-.
  - intros v Hk. by apply get_Some.
  - intros v Hk. by apply get_Some.
  - intros v Hk. by apply get_Some.
  - intros v Hk. by apply get_Some.
  - intros v Hk. by apply get_Some.
Qed.

(** X5: a constructor call that returns has called [Widget.__init__] with
    its master, width and height, the two resolved normal colours and the
    keyword arguments without the eight names it popped itself; every other
    entry reaches the base unchanged, and [HoverableMixin.__init__] ran on
    the result. *)
Theorem init_calls_base theme a l :
  Label__init__ theme a = Ok l →
  (∃ base,
     Widget__init__ (master a) (width a) (height a) (_foreground l) (_background l)
       (init_forwarded (kw a)) = Ok base ∧
     widget l = HoverableMixin__init__ base) ∧
  (∀ k, k ∈ init_popped → init_forwarded (kw a) !! k = None) ∧
  (∀ k, k ∉ init_popped → init_forwarded (kw a) !! k = kw a !! k).
Proof.
  intros Hi. split; [| split].
  - unfold Label__init__, pop in Hi. cbv zeta in Hi.
    do 16 (apply bind_Ok_inv in Hi as (? & ? & Hi)).
    injection Hi as <-. simpl. eauto.
  - intros k Hk. rewrite init_forwarded_lookup. by rewrite bool_decide_eq_true_2.
  - intros k Hk. rewrite init_forwarded_lookup. by rewrite bool_decide_eq_false_2.
Qed.

(** X6: what the constructor is given comes back through the get bridge:
    right after construction "text" and "image" answer the constructor's
    arguments, "font" answers a passed font, and "state" answers "normal"
    unless overridden. *)
Theorem init_then_get theme a l :
  Label__init__ theme a = Ok l →
  _configure_get_ "text" l = Ok (text a) ∧
  _configure_get_ "image" l = Ok (image a) ∧
  (font a ≠ PNone → _configure_get_ "font" l = Ok (font a)) ∧
  _configure_get_ "state" l = Ok (get "state" (PStr "normal") (kw a)).
Proof.
  intros Hi. apply init_inv in Hi
    as (? & ? & ? & ? & ? & ? & ? & ? & ? & ? & ? & ? & ? & ? & ? & ? & Hi).
  do 15 destruct Hi as [_ Hi]. subst l.
  repeat split. intros Hn. apply is_None_false in Hn.
  unfold _configure_get_. simpl. by rewrite Hn.
Qed.

End ConstructionMore.

(** * Further properties of the configure bridges *)

Section BridgeMore.
Context `{Pygame} {W : Type} `{WidgetBase W}.
Implicit Types (l : Label W) (v : pyval) (k : string) (m : kwargs).

(** What the get bridge answers for one of its names after a set. *)
Lemma configure_get_after_set k m l l' :
  k ∈ answered →
  _configure_set_ m l = Ok l' →
  _configure_get_ k l' =
    match m !! k with
    | Some v => Ok v
    | None => _configure_get_ k l
    end.
Proof.
  intros Hk Hs. rewrite configure_set_eq in Hs.
  apply bind_Ok_inv in Hs as (base & _ & [= <-]).
  unfold answered in Hk.
  repeat (apply elem_of_cons in Hk as [-> | Hk];
          [ unfold _configure_get_, get; simpl; by destruct (m !! _) |]).
  by apply elem_of_nil in Hk.
Qed.

(** X7: set then get is a round trip on the nine names the get bridge
    answers: after a configure-set that returns, a name with an entry in the
    mapping reads back that entry's value, unchecked, and a name without one
    reads what it read before. *)
Theorem configure_set_get_roundtrip k m l l' :
  k ∈ answered →
  _configure_set_ m l = Ok l' →
  (∀ v, m !! k = Some v → _configure_get_ k l' = Ok v) ∧
  (m !! k = None → _configure_get_ k l' = _configure_get_ k l).
Proof.
  intros Hk Hs. rewrite (configure_get_after_set k m l l' Hk Hs).
  split.
  - by intros v ->.
  - by intros ->.
Qed.

(** X8: the get bridge passes every other name to the base bridge and
    answers with whatever the base answers or raises; names are compared
    exactly, so "Text" is such a name. *)
Theorem configure_get_forwards k l :
  k ∉ answered →
  _configure_get_ k l = Widget_configure_get k (widget l).
Proof.
  intros Hk. unfold _configure_get_.
  repeat match goal with
  | |- context [String.eqb k ?s] =>
      destruct (String.eqb_spec k s) as [Heq | _];
      [ exfalso; apply Hk; rewrite Heq; unfold answered; set_solver |]
  end.
  reflexivity.
Qed.

(** X9: the set bridge fails exactly when the base bridge fails on the
    forwarded mapping, with the same exception; when it returns, the base
    part of the Label is what the base bridge returned. *)
Theorem configure_set_base m l :
  (∀ e, _configure_set_ m l = Raise e ↔
        Widget_configure_set (forwarded m) (widget l) = Raise e) ∧
  (∀ l', _configure_set_ m l = Ok l' →
         Widget_configure_set (forwarded m) (widget l) = Ok (widget l')).
Proof.
  rewrite configure_set_eq.
  destruct (Widget_configure_set (forwarded m) (widget l)) as [base | e0]; simpl.
  - split.
    + intros e. split; discriminate.
    + by intros l' [= <-].
  - split.
    + intros e. split; congruence.
    + discriminate.
Qed.

(** X10: two configure-sets in a row read back like one with the merged
    mapping, later entries winning: for each name the get bridge answers, the
    value is the second mapping's entry, else the first mapping's, else what
    the Label held. *)
Theorem configure_set_twice k m1 m2 l l1 l2 :
  k ∈ answered →
  _configure_set_ m1 l = Ok l1 →
  _configure_set_ m2 l1 = Ok l2 →
  _configure_get_ k l2 =
    match (m2 ∪ m1) !! k with
    | Some v => Ok v
    | None => _configure_get_ k l
    end.
Proof.
  intros Hk H1 H2.
  rewrite (configure_get_after_set k m2 l1 l2 Hk H2).
  rewrite (configure_get_after_set k m1 l l1 Hk H1).
  rewrite lookup_union.
  destruct (m2 !! k) as [v2 |], (m1 !! k) as [v1 |]; reflexivity.
Qed.

(** X11: a configure-set with the empty mapping assigns no attribute of the
    Label: it hands the empty mapping to the base bridge and keeps every
    other attribute. *)
Theorem configure_set_empty l :
  _configure_set_ ∅ l =
    (base ← Widget_configure_set ∅ (widget l); Ok (with_widget base l)).
Proof.
  rewrite configure_set_eq.
  assert (Hf : forwarded ∅ = (∅ : kwargs)).
  { apply map_eq. intros k. rewrite forwarded_lookup, lookup_empty.
    by case_bool_decide. }
  rewrite Hf. unfold get. by rewrite !lookup_empty.
Qed.

End BridgeMore.

(** * Further properties of the per-frame hooks *)

Section HooksMore.
Context `{Pygame} {W : Type} `{WidgetBase W}.
Implicit Types (l : Label W) (v : pyval) (o : op).

(** X12: the update does not depend on the elapsed time and is idempotent:
    a second tick with no event in between changes nothing. *)
Theorem perform_update_idempotent l (delta delta' : Q) :
  _perform_update_ delta l = _perform_update_ delta' l ∧
  _perform_update_ delta' (_perform_update_ delta l) = _perform_update_ delta l.
Proof.
  split; [reflexivity |].
  unfold _perform_update_. rewrite !set_state_None.
  unfold hover_state, with_state. simpl. reflexivity.
Qed.

(** X14: after an update the colours of a draw follow the hover flag: the
    hover pair when the flag is true, the normal pair otherwise, whatever
    state was stored before. *)
Theorem update_then_colors l (delta : Q) :
  _get_state_foreground_ (_perform_update_ delta l)
    = (if hovered (widget l) then _hovercolor l else _foreground l) ∧
  _get_state_background_ (_perform_update_ delta l)
    = (if hovered (widget l) then _hoverbackground l else _background l).
Proof.
  unfold _perform_update_. rewrite set_state_None.
  unfold hover_state, _get_state_foreground_, _get_state_background_. simpl.
  by destruct (hovered (widget l)).
Qed.

(** X15: a draw never uses the surface it is handed: the calls are the same
    for every surface argument, and each rectangle and each blit goes to the
    Label's master. *)
Theorem perform_draw_target surface surface' l :
  _perform_draw_ surface l = _perform_draw_ surface' l ∧
  Forall (λ c, call_target c = None ∨ call_target c = Some (_master (widget l)))
    (_perform_draw_ surface l).
Proof.
  split; [reflexivity |].
  rewrite perform_draw_calls.
  destruct (instance_of "Font" (_font l)), (truthy (_image l)),
    (instance_of "Surface" (_image l)); simpl;
    repeat first [ apply Forall_nil_2 | apply Forall_cons_2; [simpl; auto |] ].
Qed.






(** One operation and the wrap flag. *)
Lemma run_op_wraplength o l l' : run_op o l = Ok l' → _wraplength l' = _wraplength l.
Proof.
  destruct o as [delta | event | surface | | new_text | state | k | m]; simpl; intros Hr.
  - by injection Hr as <-.
  - by injection Hr as <-.
  - by injection Hr as <-.
  - by injection Hr as <-.
  - apply configure_None_inv in Hr. rewrite configure_set_eq in Hr.
    by apply bind_Ok_inv in Hr as (base & _ & [= <-]).
  - injection Hr as <-. unfold _set_state_. by destruct (is_None state).
  - by apply bind_Ok_inv in Hr as (v & _ & [= <-]).
  - rewrite configure_set_eq in Hr.
    by apply bind_Ok_inv in Hr as (base & _ & [= <-]).
Qed.

(** X17: the wrap flag is fixed at construction: no sequence of updates,
    events, draws, text accessors, state changes and bridge calls, a
    configure-set with a "wraplength" entry included, assigns it again. *)
Theorem wraplength_fixed (ops : list op) l l' :
  run ops l = Ok l' → _wraplength l' = _wraplength l.
Proof.
  revert l. induction ops as [| o ops IH]; intros l Hr; simpl in Hr.
  - by injection Hr as <-.
  - apply bind_Ok_inv in Hr as (l1 & Ho & Hr).
    rewrite (IH l1 Hr). by apply (run_op_wraplength o l l1).
Qed.

End HooksMore.

(** * The further properties at the concrete world *)

Lemma init_needs_theme_font_witness :
  Label__init__ (PDict ∅) World.args_override = Raise (KeyError "font").
Proof.
  apply (init_needs_theme_font (PDict ∅) World.args_override). reflexivity.
Defined.

Lemma init_needs_theme_radius_witness :
  Label__init__
    (PDict {[ "font" := PDict {[ "family" := PStr "arial"; "size" := PInt 14 ]};
              "Label" := PDict ∅ ]})
    World.args_override
  = Raise (KeyError "border_radius").
Proof.
  apply (init_needs_theme_radius _ World.args_override
           (PStr "arial") (PInt 14) (PObject "Font" 14));
    vm_compute; reflexivity.
Defined.

Lemma init_skips_normal_witness :
  Label__init__
    (PDict (<["Label" := PDict (delete "normal" World.styles)]> World.registry))
    World.args_override
  = Label__init__ (PDict World.registry) World.args_override.
Proof.
  apply (init_skips_normal World.registry World.styles).
  - vm_compute. reflexivity.
  - intros k Hk. apply lookup_delete_ne. congruence.
  - simpl. discriminate.
  - simpl. discriminate.
Defined.

Lemma init_overrides_witness :
  ∃ l, Label__init__ World.theme World.args_override = Ok l ∧
       _hovercolor l = PNone ∧
       _border_radius l = PInt 3 ∧
       pygame_Color (PTuple [1; 2; 3]) = Ok (_foreground l).
Proof.
  destruct (Label__init__ World.theme World.args_override) as [l | e] eqn:Hi;
    [| vm_compute in Hi; discriminate Hi].
  exists l. split; [reflexivity |].
  destruct (init_overrides World.theme World.args_override l Hi)
    as (Hfg & _ & Hh & _ & _ & Hr & _).
  split; [apply Hh; reflexivity |].
  split; [apply Hr; reflexivity |].
  apply Hfg. simpl. discriminate.
Defined.

Lemma init_calls_base_witness :
  init_forwarded (kw World.args_override) !! "cursor" = Some (PStr "hand") ∧
  init_forwarded (kw World.args_override) !! "border_radius" = None.
Proof.
  destruct (Label__init__ World.theme World.args_override) as [l | e] eqn:Hi;
    [| vm_compute in Hi; discriminate Hi].
  destruct (init_calls_base World.theme World.args_override l Hi) as (_ & Hp & Hf).
  split.
  - rewrite Hf; [reflexivity |]. compute_done.
  - apply Hp. compute_done.
Defined.

Lemma init_then_get_witness :
  ∃ l, Label__init__ World.theme World.args_override = Ok l ∧
       _configure_get_ "text" l = Ok (PStr "Label") ∧
       _configure_get_ "font" l = Ok (PObject "Font" 3).
Proof.
  destruct (Label__init__ World.theme World.args_override) as [l | e] eqn:Hi;
    [| vm_compute in Hi; discriminate Hi].
  exists l. split; [reflexivity |].
  destruct (init_then_get World.theme World.args_override l Hi) as (Ht & _ & Hf & _).
  split; [exact Ht |]. apply Hf. simpl. discriminate.
Defined.

Lemma configure_set_get_roundtrip_witness :
  ∃ l', _configure_set_ {[ "state" := PStr "disabled"; "text" := PNone ]} World.label0
          = Ok l' ∧
        _configure_get_ "state" l' = Ok (PStr "disabled") ∧
        _configure_get_ "font" l' = Ok (PObject "Font" 14).
Proof.
  set (m := {[ "state" := PStr "disabled"; "text" := PNone ]} : kwargs).
  destruct (_configure_set_ m World.label0) as [l' | e] eqn:Hs;
    [| vm_compute in Hs; discriminate Hs].
  exists l'. split; [reflexivity |].
  assert (Hstate : "state" ∈ answered) by compute_done.
  assert (Hfont : "font" ∈ answered) by compute_done.
  split.
  - destruct (configure_set_get_roundtrip "state" m World.label0 l' Hstate Hs) as [Hv _].
    apply Hv. reflexivity.
  - destruct (configure_set_get_roundtrip "font" m World.label0 l' Hfont Hs) as [_ Hn].
    rewrite Hn; reflexivity.
Defined.

Lemma configure_get_forwards_witness :
  _configure_get_ "Text" World.label0 = Raise (AttributeError "Text") ∧
  _configure_get_ "master" World.label0 = Ok PNone.
Proof.
  split.
  - rewrite (configure_get_forwards "Text" World.label0); [reflexivity |].
    compute_done.
  - rewrite (configure_get_forwards "master" World.label0); [reflexivity |].
    compute_done.
Defined.

Lemma configure_set_twice_witness :
  ∃ l1 l2,
    _configure_set_ {[ "text" := PStr "one"; "state" := PStr "hovered" ]} World.label0
      = Ok l1 ∧
    _configure_set_ {[ "text" := PStr "two" ]} l1 = Ok l2 ∧
    _configure_get_ "text" l2 = Ok (PStr "two") ∧
    _configure_get_ "state" l2 = Ok (PStr "hovered").
Proof.
  set (m1 := {[ "text" := PStr "one"; "state" := PStr "hovered" ]} : kwargs).
  set (m2 := {[ "text" := PStr "two" ]} : kwargs).
  destruct (_configure_set_ m1 World.label0) as [l1 | e] eqn:H1;
    [| vm_compute in H1; discriminate H1].
  destruct (_configure_set_ m2 l1) as [l2 | e] eqn:H2;
    [| rewrite configure_set_eq in H2; discriminate H2].
  exists l1, l2. split; [reflexivity |]. split; [exact H2 |].
  assert (Htext : "text" ∈ answered) by compute_done.
  assert (Hstate : "state" ∈ answered) by compute_done.
  split.
  - rewrite (configure_set_twice "text" m1 m2 World.label0 l1 l2 Htext H1 H2).
    reflexivity.
  - rewrite (configure_set_twice "state" m1 m2 World.label0 l1 l2 Hstate H1 H2).
    reflexivity.
Defined.


Lemma wraplength_fixed_witness :
  ∃ l', run [ConfigureSet {[ "wraplength" := PBool false ]}; Update 0] World.label0
          = Ok l' ∧
        _wraplength l' = PBool true.
Proof.
  destruct (run [ConfigureSet {[ "wraplength" := PBool false ]}; Update 0] World.label0)
    as [l' | e] eqn:Hr; [| vm_compute in Hr; discriminate Hr].
  exists l'. split; [reflexivity |].
  apply (wraplength_fixed _ World.label0 l' Hr).
Defined.

(** * What a draw shows after a set *)

Section SetThenDraw.
Context `{Pygame} {W : Type} `{WidgetBase W}.
Implicit Types (l : Label W) (v : pyval) (m : kwargs).


End SetThenDraw.


Lemma configure_set_base_witness :
  ∃ l', _configure_set_ {[ "text" := PStr "Hi" ]} World.label0 = Ok l' ∧
        Widget_configure_set (forwarded {[ "text" := PStr "Hi" ]}) (widget World.label0)
          = Ok (widget l').
Proof.
  set (m := {[ "text" := PStr "Hi" ]} : kwargs).
  destruct (_configure_set_ m World.label0) as [l' | e] eqn:Hs;
    [| vm_compute in Hs; discriminate Hs].
  exists l'. split; [reflexivity |].
  destruct (configure_set_base m World.label0) as [_ Hok].
  exact (Hok l' Hs).
Defined.
